(** * Garbage-collected handles and factories of eCore (Memory/GarbageCollection.h)

    A shallow embedding of [GCCounter], [GCUniquePtr], [GCThisPtr],
    [GCWeakPtr] and [GCConcreteFactory].

    - Pointers are addresses ([nat]); [0] is [nullptr].
    - The heap of [GCCounter] records is a [gmap] from address to record;
      [E_NEW(Counter)] picks a fresh address, [E_DELETE] removes it.
    - A handle ([GCUniquePtr], [GCWeakPtr], [GCThisPtr]) is the value of its
      only field [mpCounter], i.e. a counter address.
    - The reference count is an [A32]: a 32-bit integer, kept as [Z] with
      its wrap-around written out.
    - [IGarbageCollector<T>*] is a factory address; the virtual calls
      [Collect] / [Destroy] dispatch to the [GCConcreteFactory] stored at
      that address.
    - Failed assertions ([E_ASSERT], [E_ASSERT_PTR], [E_ASSERT_MSG],
      [E_ASSERT_ALWAYS]) are fatal: the run stops with [AssertFailed].
      Reading through a null or dangling record pointer stops the run with
      [NullDeref] / [BadAccess] (undefined behaviour in C++).
    - Calls into the collector and the allocator are recorded in a trace. *)

From stdpp Require Import base gmap sets list.
From Stdlib Require Import ZArith Lia.

Open Scope Z_scope.

(** ** Data model *)

(** [GCCounter<T, A32>] *)
Record GCCounter := mkCounter {
  count : Z;            (** [CounterType count] (A32) *)
  ptr : nat;            (** [T* ptr] *)
  pCollector : nat      (** [IGarbageCollector<T>* pCollector] *)
}.

(** [GCConcreteFactory<T>]: the fields the claims read.  [mLiveList] is the
    [Containers::List<GCUniquePtr>] of owning handles (counter addresses). *)
Record GCConcreteFactory := mkFactory {
  mLiveList : list nat;
  mCleaningUp : bool
}.

(** Observable calls. *)
Inductive Event :=
  | EvAlloc (factory obj : nat)       (** [E_NEW(T, 1, mpAllocator, ...)] returned [obj] *)
  | EvCollect (factory obj : nat)     (** [GCConcreteFactory::Collect(obj)] entered *)
  | EvDestroy (factory obj : nat).    (** [GCConcreteFactory::Destroy(obj)] entered *)

Record State := mkState {
  ctrs : gmap nat GCCounter;          (** live [GCCounter] records *)
  facs : gmap nat GCConcreteFactory;  (** factories, by address *)
  objs : gset nat;                    (** objects held by the allocator *)
  oom : bool;                         (** the allocator returns no memory *)
  trace : list Event
}.

Inductive Fault := AssertFailed | NullDeref | BadAccess.

Inductive Res (A : Type) :=
  | Ok (a : A) (s : State)
  | Err (e : Fault) (s : State).
Arguments Ok {A} a s.
Arguments Err {A} e s.

(** A state and error monad. *)
Definition M (A : Type) := State -> Res A.

Definition ret {A} (a : A) : M A := fun s => Ok a s.
Definition bind {A B} (m : M A) (k : A -> M B) : M B :=
  fun s => match m s with Ok a s' => k a s' | Err e s' => Err e s' end.
Definition fault {A} (e : Fault) : M A := fun s => Err e s.

Notation "'let*' x := m 'in' k" := (bind m (fun x => k))
  (at level 200, x name, m at level 100, right associativity).
Notation "m ;;; k" := (bind m (fun _ => k))
  (at level 100, right associativity).

(** [E_ASSERT(b)] *)
Definition E_ASSERT (b : bool) : M unit :=
  if b then ret tt else fault AssertFailed.

(** ** Heap of counter records *)

Definition set_ctrs (s : State) (m : gmap nat GCCounter) : State :=
  mkState m (facs s) (objs s) (oom s) (trace s).
Definition set_facs (s : State) (m : gmap nat GCConcreteFactory) : State :=
  mkState (ctrs s) m (objs s) (oom s) (trace s).
Definition set_objs (s : State) (o : gset nat) : State :=
  mkState (ctrs s) (facs s) o (oom s) (trace s).
Definition emit (ev : Event) : M unit :=
  fun s => Ok tt (mkState (ctrs s) (facs s) (objs s) (oom s) (trace s ++ [ev])).

(** [*mpCounter] *)
Definition load (a : nat) : M GCCounter :=
  fun s =>
    if decide (a = 0%nat) then Err NullDeref s
    else match ctrs s !! a with Some c => Ok c s | None => Err BadAccess s end.

Definition store (a : nat) (c : GCCounter) : M unit :=
  fun s =>
    if decide (a = 0%nat) then Err NullDeref s
    else match ctrs s !! a with
         | Some _ => Ok tt (set_ctrs s (<[a := c]> (ctrs s)))
         | None => Err BadAccess s end.

(** [E_NEW(Counter)]: a zero-initialised record at a fresh non-null address. *)
Definition new_counter : M nat :=
  fun s =>
    let a := fresh ({[0%nat]} ∪ dom (ctrs s)) in
    Ok a (set_ctrs s (<[a := mkCounter 0 0 0]> (ctrs s))).

(** [E_DELETE(mpCounter)] *)
Definition delete_counter (a : nat) : M unit :=
  fun s =>
    match ctrs s !! a with
    | Some _ => Ok tt (set_ctrs s (delete a (ctrs s)))
    | None => Err BadAccess s end.

(** [A32] arithmetic: 32-bit wrap-around. *)
Definition a32 (z : Z) : Z := z mod 2 ^ 32.
Definition a32_inc (z : Z) : Z := a32 (z + 1).
Definition a32_dec (z : Z) : Z := a32 (z - 1).

Definition set_count (c : GCCounter) (n : Z) : GCCounter :=
  mkCounter n (ptr c) (pCollector c).
Definition set_ptr (c : GCCounter) (p : nat) : GCCounter :=
  mkCounter (count c) p (pCollector c).

(** ** Factory fields *)

Definition get_fac (f : nat) : M GCConcreteFactory :=
  fun s => match facs s !! f with Some F => Ok F s | None => Err BadAccess s end.

Definition put_fac (f : nat) (F : GCConcreteFactory) : M unit :=
  fun s => Ok tt (set_facs s (<[f := F]> (facs s))).

(** ** The allocator *)

(** Modelled from the spec: [E_NEW(T, 1, mpAllocator, eTagFactoryNew)] (the
    allocator interface is not part of src/).  "give me raw storage for one
    T": a fresh non-null object, or [nullptr] when the allocator returns no
    memory ([oom]).  The call is recorded. *)
Definition E_NEW_T (f : nat) : M nat :=
  fun s =>
    let o := if oom s then 0%nat else fresh ({[0%nat]} ∪ objs s) in
    let s1 := if oom s then s else set_objs s ({[o]} ∪ objs s) in
    (emit (EvAlloc f o) ;;; ret o) s1.

(** Modelled from the spec: [E_DELETE(ptr, 1, mpAllocator, eTagFactoryDelete)],
    "reclaim storage for one T". *)
Definition E_DELETE_T (o : nat) : M unit :=
  fun s => Ok tt (set_objs s (objs s ∖ {[o]})).

(** ** [GCConcreteFactory<T>::Destroy] *)
Definition fac_Destroy (f : nat) (p : nat) : M unit :=
  emit (EvDestroy f p) ;;;
  let* _ := get_fac f in
  E_ASSERT (negb (p =? 0)%nat) ;;;
  E_DELETE_T p.

(** [mpCounter->pCollector->Destroy(p)]: virtual call through the collector. *)
Definition collector_Destroy (col p : nat) : M unit :=
  if decide (col = 0%nat) then fault NullDeref else fac_Destroy col p.

(** ** [GCUniquePtr] *)

(** [GCUniquePtr(T* ptr, IGarbageCollector<T>* pCollector)] *)
Definition uptr_new (p col : nat) : M nat :=
  E_ASSERT (negb (p =? 0)%nat) ;;;
  E_ASSERT (negb (col =? 0)%nat) ;;;
  let* a := new_counter in
  let* c := load a in
  store a (mkCounter (count c) p col) ;;;
  ret a.

(** [GCUniquePtr::Swap(const GCUniquePtr& other)]: the new values of
    ([this->mpCounter], [other.mpCounter]). *)
Definition uptr_Swap (this other : nat) : nat * nat := (other, this).

(** [GCUniquePtr(const GCUniquePtr& other) : mpCounter(nullptr) { Swap(other); }]:
    the new values of (the constructed handle, [other]). *)
Definition uptr_copy_construct (other : nat) : nat * nat := uptr_Swap 0%nat other.

(** [GCUniquePtr::operator=(const GCUniquePtr& other) { Swap(other); }]:
    the new values of ([*this], [other]). *)
Definition uptr_assign (this other : nat) : nat * nat := uptr_Swap this other.

(** [GCUniquePtr::operator==(const GCUniquePtr& other)] *)
Definition uptr_eq (a b : nat) : M bool :=
  if (a =? b)%nat then
    let* ca := load a in
    let* cb := load b in
    ret (ptr ca =? ptr cb)%nat
  else ret false.

(** [GCUniquePtr::operator==(const T* ptr)] *)
Definition uptr_eq_raw (a p : nat) : M bool :=
  if (a =? 0)%nat then ret (p =? 0)%nat
  else let* c := load a in ret (ptr c =? p)%nat.

(** [GCUniquePtr::Reset()]; returns the new [mpCounter]. *)
Definition uptr_Reset (a : nat) : M nat :=
  if (a =? 0)%nat then ret 0%nat
  else
    let* c := load a in
    collector_Destroy (pCollector c) (ptr c) ;;;
    let* c' := load a in
    (if count c' =? 0 then delete_counter a else store a (set_ptr c' 0%nat)) ;;;
    ret 0%nat.

(** ** [GCThisPtr] *)

(** [GCThisPtr(T* ptr) : mpCounter(E_NEW(Counter)) { mpCounter->ptr = ptr; }] *)
Definition this_new (p : nat) : M nat :=
  let* a := new_counter in
  let* c := load a in
  store a (set_ptr c p) ;;;
  ret a.

(** [~GCThisPtr()] *)
Definition this_destroy (a : nat) : M unit :=
  let* c := load a in
  if count c =? 0 then delete_counter a else store a (set_ptr c 0%nat).

(** ** [Containers::List] operations used on the live list *)

(** Modelled from the spec: [Containers::List::RemoveFast] (not part of src/)
    "removes it without preserving order": the last element takes the place
    of the removed one and the list shrinks by one. *)
Definition remove_fast_list (l : list nat) (i : nat) : list nat :=
  match last l with
  | None => l
  | Some x =>
      if decide (S i = length l) then take i l
      else <[i := x]> (take (length l - 1) l)
  end.

(** Modelled from the spec: [mLiveList.RemoveFast(it)] on the factory [f],
    followed by the destruction of the removed owning handle (its destructor
    runs [GCUniquePtr::Reset]). *)
Definition remove_fast (f i : nat) : M unit :=
  let* F := get_fac f in
  match mLiveList F !! i with
  | None => fault BadAccess
  | Some u =>
      put_fac f (mkFactory (remove_fast_list (mLiveList F) i) (mCleaningUp F)) ;;;
      uptr_Reset u ;;;
      ret tt
  end.

(** The search loop of [Collect]: [for (it ...) if ( *it == ptr ) ...];
    the index of the first match. *)
Fixpoint find_live (p : nat) (l : list nat) (i : nat) : M (option nat) :=
  match l with
  | [] => ret None
  | u :: l' =>
      let* b := uptr_eq_raw u p in
      if b then ret (Some i) else find_live p l' (S i)
  end.

(** ** [GCConcreteFactory<T>::Collect] *)
Definition fac_Collect (f p : nat) : M unit :=
  emit (EvCollect f p) ;;;
  let* F := get_fac f in
  if mCleaningUp F then ret tt
  else
    let* r := find_live p (mLiveList F) 0 in
    match r with
    | Some i => remove_fast f i
    | None => E_ASSERT false
    end.

(** [mpCounter->pCollector->Collect(p)] *)
Definition collector_Collect (col p : nat) : M unit :=
  if decide (col = 0%nat) then fault NullDeref else fac_Collect col p.

(** ** [GCWeakPtr] *)

(** [GCWeakPtr(const GCWeakPtr& other)] and the constructors from
    [GCUniquePtr] / [GCThisPtr] (one type [T]: the [SafeCast] assertion holds). *)
Definition weak_attach (a : nat) : M nat :=
  if (a =? 0)%nat then ret 0%nat
  else
    let* c := load a in
    store a (set_count c (a32_inc (count c))) ;;;
    ret a.

(** [GCWeakPtr::Reset()]; returns the new [mpCounter]. *)
Definition weak_Reset (a : nat) : M nat :=
  if (a =? 0)%nat then ret 0%nat
  else
    let* c := load a in
    store a (set_count c (a32_dec (count c))) ;;;
    let* c' := load a in
    (if count c' =? 0 then
       if (ptr c' =? 0)%nat then delete_counter a
       else if negb (pCollector c' =? 0)%nat then collector_Collect (pCollector c') (ptr c')
       else ret tt
     else ret tt) ;;;
    ret 0%nat.

(** [GCWeakPtr::GetCount()] *)
Definition weak_GetCount (a : nat) : M Z :=
  if (a =? 0)%nat then ret 0 else let* c := load a in ret (count c).

(** [GCWeakPtr::GetPtr()] *)
Definition weak_GetPtr (a : nat) : M nat :=
  if (a =? 0)%nat then ret 0%nat else let* c := load a in ret (ptr c).

(** [GCWeakPtr::operator->()] (and [operator*]) *)
Definition weak_deref (a : nat) : M nat :=
  if (a =? 0)%nat then fault AssertFailed
  else
    let* c := load a in
    E_ASSERT (negb (ptr c =? 0)%nat) ;;;
    ret (ptr c).

(** [GCWeakPtr::operator==(const GCWeakPtr& other)] *)
Definition weak_eq (a b : nat) : M bool :=
  if (a =? b)%nat then ret true
  else if (a =? 0)%nat then let* cb := load b in ret (ptr cb =? 0)%nat
  else if (b =? 0)%nat then let* ca := load a in ret (ptr ca =? 0)%nat
  else ret false.

(** ** [GCConcreteFactory<T>] methods *)

(** [GCConcreteFactory::GetLiveCount()] *)
Definition fac_GetLiveCount (f : nat) : M nat :=
  let* F := get_fac f in ret (length (mLiveList F)).

(** [GCConcreteFactory::Create()]: returns the [Ref] (a [GCWeakPtr]). *)
Definition fac_Create (f : nat) : M nat :=
  let* _ := get_fac f in
  let* p := E_NEW_T f in
  E_ASSERT (negb (p =? 0)%nat) ;;;
  let* tmp := uptr_new p f in
  (* mLiveList.PushBack(Ptr(ptr, this)): the element is copy-constructed
     from the temporary, which is then destroyed *)
  let (elem, tmp') := uptr_copy_construct tmp in
  let* F := get_fac f in
  put_fac f (mkFactory (mLiveList F ++ [elem]) (mCleaningUp F)) ;;;
  uptr_Reset tmp' ;;;
  (* return *mLiveList.GetBack(); *)
  weak_attach elem.

(** ** Further [GCWeakPtr] operators *)

(** [GCWeakPtr::Swap(GCWeakPtr& other)]: the new values of
    ([this->mpCounter], [other.mpCounter]). *)
Definition weak_Swap (this other : nat) : nat * nat := (other, this).

(** [GCWeakPtr::operator=(const GCWeakPtr& other)] and the overloads taking a
    [GCWeakPtr<U>], a [GCUniquePtr<U>] or a [GCThisPtr<U>]:
    [GCWeakPtr(other).Swap( *this);].  A temporary is attached to [other]'s
    record, swapped with [*this], and destroyed at the end of the statement;
    returns the new [*this]. *)
Definition weak_assign (this other : nat) : M nat :=
  let* tmp := weak_attach other in
  let (tmp', this') := weak_Swap tmp this in
  (* ~GCWeakPtr() of the temporary *)
  weak_Reset tmp' ;;;
  ret this'.

(** [GCWeakPtr::operator=(T* ptr)]:
    [E_ASSERT_MSG(ptr == nullptr, ...); if (ptr == nullptr) Reset();];
    returns the new [*this]. *)
Definition weak_assign_raw (this p : nat) : M nat :=
  E_ASSERT (p =? 0)%nat ;;;
  if (p =? 0)%nat then weak_Reset this else ret this.

(** [GCWeakPtr::operator==(const T* ptr)] *)
Definition weak_eq_raw (a p : nat) : M bool :=
  if (a =? 0)%nat then ret (p =? 0)%nat
  else let* c := load a in ret (ptr c =? p)%nat.

(** [GCWeakPtr::operator!=(const GCWeakPtr& other)]: [!(( *this) == other)] *)
Definition weak_ne (a b : nat) : M bool :=
  let* e := weak_eq a b in ret (negb e).

(** [GCWeakPtr::operator!=(const T* ptr)]: [!(( *this) == ptr)] *)
Definition weak_ne_raw (a p : nat) : M bool :=
  let* e := weak_eq_raw a p in ret (negb e).

(** [GCWeakPtr::operator bool()]: [operator!=(nullptr)] *)
Definition weak_bool (a : nat) : M bool := weak_ne_raw a 0%nat.

(** ** Further [GCUniquePtr] and [GCThisPtr] operators *)

(** [GCUniquePtr::operator!=(const GCUniquePtr& other)] *)
Definition uptr_ne (a b : nat) : M bool :=
  if (a =? b)%nat then
    let* ca := load a in
    let* cb := load b in
    ret (negb (ptr ca =? ptr cb)%nat)
  else ret true.

(** [GCUniquePtr::operator!=(const T* ptr)] *)
Definition uptr_ne_raw (a p : nat) : M bool :=
  if (a =? 0)%nat then ret (negb (p =? 0)%nat)
  else let* c := load a in ret (negb (ptr c =? p)%nat).

(** [GCUniquePtr::operator->()] (and [operator*]):
    [E_ASSERT_MSG(mpCounter && mpCounter->ptr, ...); return mpCounter->ptr;] *)
Definition uptr_deref (a : nat) : M nat :=
  if (a =? 0)%nat then fault AssertFailed
  else
    let* c := load a in
    E_ASSERT (negb (ptr c =? 0)%nat) ;;;
    ret (ptr c).

(** [GCThisPtr::operator==(const T* ptr)] *)
Definition this_eq_raw (a p : nat) : M bool :=
  let* c := load a in ret (ptr c =? p)%nat.

(** [GCThisPtr::operator!=(const T* ptr)] *)
Definition this_ne_raw (a p : nat) : M bool :=
  let* c := load a in ret (negb (ptr c =? p)%nat).

(** ** [GCConcreteFactory<T>::CleanUp] and the destructor *)

(** The owning handles destroyed front to back: each destructor runs
    [GCUniquePtr::Reset]. *)
Fixpoint destroy_all (l : list nat) : M unit :=
  match l with
  | [] => ret tt
  | u :: l' => uptr_Reset u ;;; destroy_all l'
  end.

(** Modelled from the spec: [mLiveList.Clear()] ([Containers::List] is not
    part of src/), "clears the entire live set (destroying every still-live
    object via their Owning Handle destructors)": every element is destroyed,
    front to back, and the list is left empty. *)
Definition live_list_Clear (f : nat) : M unit :=
  let* F := get_fac f in
  destroy_all (mLiveList F) ;;;
  let* F' := get_fac f in
  put_fac f (mkFactory [] (mCleaningUp F')).

(** [GCConcreteFactory::CleanUp()] *)
Definition fac_CleanUp (f : nat) : M unit :=
  let* F := get_fac f in
  put_fac f (mkFactory (mLiveList F) true) ;;;
  live_list_Clear f ;;;
  let* F' := get_fac f in
  put_fac f (mkFactory (mLiveList F') false).


(** ** A caller: [DX11Device::Create*] (eGraphics, DX11Device.cpp)

    [CreateBlendState], [CreateDepthStencilState], [CreateRenderTarget],
    [CreateRasterState], [CreateSampler], [CreateShader], [CreateTexture2D],
    [CreateVertexLayout] and [CreateViewport] share one body:
<<
    XInstance x = mXFactory.Create();
    if (!x->Initialize(desc)) x = nullptr;
    return x;
>>
    [initialized] is the result of [Initialize], a DirectX call outside this
    model.  The return converts the local [GCWeakPtr<DX11X>] to the interface
    handle [GCWeakPtr<IX>] (the converting constructor: the handle holds a
    live object or is empty, so its [SafeCast] assertion holds), then the
    local handle is destroyed.  The [E_DEBUG_MSG] line only reads the live
    count and is left out. *)
Definition device_create (f : nat) (initialized : bool) : M nat :=
  let* x := fac_Create f in
  let* _ := weak_deref x in
  let* x' := if initialized then ret x else weak_assign_raw x 0%nat in
  let* r := weak_attach x' in
  weak_Reset x' ;;;
  ret r.

(** ** Scenario of the spec (section "Scenario"): one object through a factory *)

Record Observed := mkObserved {
  obs_count_h1 : Z;          (** [H1.GetCount()] after [Create()] *)
  obs_eq_h1_h2 : bool;       (** [H1 == H2] after the copy *)
  obs_count_h1_copy : Z;     (** [H1.GetCount()] after the copy *)
  obs_count_h2_copy : Z;     (** [H2.GetCount()] after the copy *)
  obs_count_h2_reset : Z;    (** [H2.GetCount()] after resetting [H1] *)
  obs_live_before : nat;     (** [GetLiveCount()] before resetting [H2] *)
  obs_live_after : nat;      (** [GetLiveCount()] after resetting [H2] *)
  obs_h1 : nat;              (** [H1] after its reset *)
  obs_h2 : nat               (** [H2] after its reset *)
}.

Definition scenario (f : nat) : M Observed :=
  let* h1 := fac_Create f in
  let* c1 := weak_GetCount h1 in
  let* h2 := weak_attach h1 in
  let* e := weak_eq h1 h2 in
  let* c1' := weak_GetCount h1 in
  let* c2 := weak_GetCount h2 in
  let* h1' := weak_Reset h1 in
  let* c2' := weak_GetCount h2 in
  let* live1 := fac_GetLiveCount f in
  let* h2' := weak_Reset h2 in
  let* live0 := fac_GetLiveCount f in
  ret (mkObserved c1 e c1' c2 c2' live1 live0 h1' h2').

(** The object pointer a handle resolves to ([GetPtr] without failure). *)
Definition resolved (m : gmap nat GCCounter) (a : nat) : nat :=
  if (a =? 0)%nat then 0%nat
  else match m !! a with Some c => ptr c | None => 0%nat end.

(** [*it == ptr] for a live-list entry, [None] if the record is unreadable. *)
Definition entry_is (m : gmap nat GCCounter) (p u : nat) : option bool :=
  if (u =? 0)%nat then Some (p =? 0)%nat
  else match m !! u with Some c => Some (ptr c =? p)%nat | None => None end.

(** A record after [GCUniquePtr::Reset] on its owning handle: freed when no
    weak handle is attached, otherwise kept with a null object pointer. *)
Definition reset_record (o : option GCCounter) : option GCCounter :=
  match o with
  | Some c => if count c =? 0 then None else Some (set_ptr c 0%nat)
  | None => None
  end.

(** ** Concrete states *)

(** A fresh factory at address 1, nothing allocated yet. *)
Definition st_fresh : State := mkState ∅ {[1%nat := mkFactory [] false]} ∅ false [].

(** The same factory with an allocator that has no memory left. *)
Definition st_oom : State := mkState ∅ {[1%nat := mkFactory [] false]} ∅ true [].

(** A [GCThisPtr] record (no collector) at address 1 for object 5, observed
    by one weak handle. *)
Definition st_this : State := mkState {[1%nat := mkCounter 1 5 0]} ∅ {[5%nat]} false [].

(** Two owning records at addresses 1 and 2 holding the same object pointer 5. *)
Definition st_twin : State :=
  mkState {[1%nat := mkCounter 0 5 1; 2%nat := mkCounter 0 5 1]} ∅ {[5%nat]} false [].

(** Two expired records at addresses 1 and 2, each observed by one weak handle. *)
Definition st_expired : State :=
  mkState {[1%nat := mkCounter 1 0 1; 2%nat := mkCounter 1 0 1]} ∅ ∅ false [].

(** Factory 1 owning record 1 for object 5, observed by one weak handle whose
    reset has brought the count to zero. *)
Definition st_owned : State :=
  mkState {[1%nat := mkCounter 0 5 1]} {[1%nat := mkFactory [1%nat] false]} {[5%nat]} false [].

(** Factory 1 owning record 2 (object 7), observed by two weak handles. *)
Definition st_observed : State :=
  mkState {[2%nat := mkCounter 2 7 1]} {[1%nat := mkFactory [2%nat] false]} {[7%nat]} false [].

(** Factory 1 owning record 2 (object 7, one weak handle attached) and
    record 3 (object 8, no weak handle). *)
Definition st_two_live : State :=
  mkState {[2%nat := mkCounter 1 7 1; 3%nat := mkCounter 0 8 1]}
          {[1%nat := mkFactory [2%nat; 3%nat] false]} {[7%nat; 8%nat]} false [].

(** ** Monad and heap lemmas *)

Lemma bind_Ok {A B} (m : M A) (k : A -> M B) s a s' :
  m s = Ok a s' -> bind m k s = k a s'.
Proof. unfold bind. intros ->. reflexivity. Qed.

Lemma bind_Err {A B} (m : M A) (k : A -> M B) s e s' :
  m s = Err e s' -> bind m k s = Err e s'.
Proof. unfold bind. intros ->. reflexivity. Qed.

Lemma load_Ok a c s :
  a <> 0%nat -> ctrs s !! a = Some c -> load a s = Ok c s.
Proof. intros Ha Hc. unfold load. rewrite decide_False by done. by rewrite Hc. Qed.

Lemma store_Ok a c c' s :
  a <> 0%nat -> ctrs s !! a = Some c ->
  store a c' s = Ok tt (set_ctrs s (<[a := c']> (ctrs s))).
Proof. intros Ha Hc. unfold store. rewrite decide_False by done. by rewrite Hc. Qed.

Lemma delete_counter_Ok a c s :
  ctrs s !! a = Some c -> delete_counter a s = Ok tt (set_ctrs s (delete a (ctrs s))).
Proof. intros Hc. unfold delete_counter. by rewrite Hc. Qed.

Lemma E_ASSERT_true s : E_ASSERT true s = Ok tt s.
Proof. reflexivity. Qed.

Lemma nat_eqb_ne a b : a <> b -> (a =? b)%nat = false.
Proof. apply Nat.eqb_neq. Qed.

Lemma fresh_ctr_spec s :
  let a := fresh ({[0%nat]} ∪ dom (ctrs s)) in a <> 0%nat /\ ctrs s !! a = None.
Proof.
  intros a. pose proof (is_fresh ({[0%nat]} ∪ dom (ctrs s))) as H. fold a in H.
  split.
  - intros ->. apply H. set_solver.
  - apply not_elem_of_dom. set_solver.
Qed.

Lemma fresh_obj_spec s :
  let o := fresh ({[0%nat]} ∪ objs s) in o <> 0%nat /\ o ∉ objs s.
Proof.
  intros o. pose proof (is_fresh ({[0%nat]} ∪ objs s)) as H. fold o in H.
  split; [intros ->|]; set_solver.
Qed.

Lemma a32_small z : 0 <= z < 2 ^ 32 -> a32 z = z.
Proof. intros H. unfold a32. apply Z.mod_small. exact H. Qed.

Lemma a32_dec_small z : 1 <= z <= 2 ^ 32 -> a32_dec z = z - 1.
Proof. intros H. unfold a32_dec. apply a32_small. lia. Qed.

Lemma a32_inc_small z : 0 <= z < 2 ^ 32 - 1 -> a32_inc z = z + 1.
Proof. intros H. unfold a32_inc. apply a32_small. lia. Qed.

(** ** Operation lemmas *)

(** Symbolic execution through the heap accessors. *)
Ltac heap_steps :=
  repeat (cbn; first [ rewrite decide_False by done
                     | rewrite lookup_insert_eq
                     | rewrite insert_insert_eq
                     | reflexivity ]).

Lemma weak_attach_Ok a c s :
  a <> 0%nat -> ctrs s !! a = Some c ->
  weak_attach a s = Ok a (set_ctrs s (<[a := set_count c (a32_inc (count c))]> (ctrs s))).
Proof.
  intros Ha Hc. unfold weak_attach. rewrite nat_eqb_ne by done.
  unfold bind. rewrite (load_Ok a c) by done. by rewrite (store_Ok a c) by done.
Qed.

Lemma weak_GetCount_Ok a c s :
  a <> 0%nat -> ctrs s !! a = Some c -> weak_GetCount a s = Ok (count c) s.
Proof.
  intros Ha Hc. unfold weak_GetCount. rewrite nat_eqb_ne by done.
  unfold bind. by rewrite (load_Ok a c) by done.
Qed.

Lemma fac_GetLiveCount_Ok f F s :
  facs s !! f = Some F -> fac_GetLiveCount f s = Ok (length (mLiveList F)) s.
Proof. intros HF. unfold fac_GetLiveCount, bind, get_fac. by rewrite HF. Qed.

Lemma fac_Destroy_Ok f F p s :
  facs s !! f = Some F -> p <> 0%nat ->
  fac_Destroy f p s =
    Ok tt (mkState (ctrs s) (facs s) (objs s ∖ {[p]}) (oom s) (trace s ++ [EvDestroy f p])).
Proof.
  intros HF Hp. unfold fac_Destroy, bind, emit, get_fac. cbn. rewrite HF.
  unfold E_ASSERT. rewrite nat_eqb_ne by done. reflexivity.
Qed.

(** [GCWeakPtr::Reset] on an attached handle: the count is decremented and
    stored, then the zero-count branch runs on the stored record. *)
Lemma weak_Reset_unfold a c s :
  a <> 0%nat -> ctrs s !! a = Some c ->
  let c1 := set_count c (a32_dec (count c)) in
  let s1 := set_ctrs s (<[a := c1]> (ctrs s)) in
  weak_Reset a s =
    bind (if count c1 =? 0 then
            if (ptr c =? 0)%nat then delete_counter a
            else if negb (pCollector c =? 0)%nat then collector_Collect (pCollector c) (ptr c)
            else ret tt
          else ret tt) (fun _ => ret 0%nat) s1.
Proof.
  intros Ha Hc c1 s1. unfold weak_Reset. rewrite nat_eqb_ne by done.
  unfold bind at 1. rewrite (load_Ok a c) by done.
  unfold bind at 1. rewrite (store_Ok a c) by done. fold s1.
  unfold bind at 1. rewrite (load_Ok a c1); [reflexivity | done |].
  unfold s1. cbn. by rewrite lookup_insert_eq.
Qed.

(** [GCUniquePtr::Reset] on a non-empty handle whose collector is a factory. *)
Lemma uptr_Reset_Ok a c F s :
  a <> 0%nat -> ctrs s !! a = Some c -> pCollector c <> 0%nat ->
  facs s !! pCollector c = Some F -> ptr c <> 0%nat ->
  uptr_Reset a s =
    Ok 0%nat (mkState (if count c =? 0 then delete a (ctrs s)
                       else <[a := set_ptr c 0%nat]> (ctrs s))
                      (facs s) (objs s ∖ {[ptr c]}) (oom s)
                      (trace s ++ [EvDestroy (pCollector c) (ptr c)])).
Proof.
  intros Ha Hc Hcol HF Hp. unfold uptr_Reset. rewrite nat_eqb_ne by done.
  unfold bind at 1. rewrite (load_Ok a c) by done.
  unfold bind at 1. unfold collector_Destroy. rewrite decide_False by done.
  rewrite (fac_Destroy_Ok _ F) by done.
  unfold bind at 1. rewrite (load_Ok a c) by done.
  destruct (count c =? 0).
  - unfold bind. rewrite (delete_counter_Ok a c) by done. reflexivity.
  - unfold bind. rewrite (store_Ok a c) by done. reflexivity.
Qed.

Lemma E_NEW_T_Ok f s :
  oom s = false ->
  let o := fresh ({[0%nat]} ∪ objs s) in
  E_NEW_T f s = Ok o (mkState (ctrs s) (facs s) ({[o]} ∪ objs s) (oom s) (trace s ++ [EvAlloc f o])).
Proof. intros Hoom o. destruct s; cbn in *; subst. reflexivity. Qed.

Lemma E_NEW_T_oom f s :
  oom s = true ->
  E_NEW_T f s = Ok 0%nat (mkState (ctrs s) (facs s) (objs s) (oom s) (trace s ++ [EvAlloc f 0])).
Proof. intros Hoom. destruct s; cbn in *; subst. reflexivity. Qed.

Lemma uptr_new_Ok p col s :
  p <> 0%nat -> col <> 0%nat ->
  let a := fresh ({[0%nat]} ∪ dom (ctrs s)) in
  uptr_new p col s = Ok a (set_ctrs s (<[a := mkCounter 0 p col]> (ctrs s))).
Proof.
  intros Hp Hcol a. destruct (fresh_ctr_spec s) as [Ha0 Ha]. fold a in Ha0, Ha.
  unfold uptr_new, E_ASSERT, bind, ret, new_counter, load, store.
  rewrite !nat_eqb_ne by done. cbn. fold a.
  unfold set_ctrs. heap_steps.
Qed.

Lemma fac_Create_Ok f F s :
  f <> 0%nat -> facs s !! f = Some F -> oom s = false ->
  let p := fresh ({[0%nat]} ∪ objs s) in
  let a := fresh ({[0%nat]} ∪ dom (ctrs s)) in
  fac_Create f s =
    Ok a (mkState (<[a := mkCounter 1 p f]> (ctrs s))
                  (<[f := mkFactory (mLiveList F ++ [a]) (mCleaningUp F)]> (facs s))
                  ({[p]} ∪ objs s) (oom s) (trace s ++ [EvAlloc f p])).
Proof.
  intros Hf HF Hoom p a.
  destruct (fresh_obj_spec s) as [Hp0 Hp]. fold p in Hp0, Hp.
  destruct (fresh_ctr_spec s) as [Ha0 Ha]. fold a in Ha0, Ha.
  unfold fac_Create.
  unfold bind at 1. unfold get_fac at 1. rewrite HF.
  unfold bind at 1. rewrite (E_NEW_T_Ok f s Hoom). fold p.
  unfold bind at 1. rewrite nat_eqb_ne by done. cbn [negb]. rewrite E_ASSERT_true.
  unfold bind at 1. rewrite uptr_new_Ok by done. cbn [ctrs]. fold a.
  cbn [uptr_copy_construct uptr_Swap].
  unfold bind at 1. unfold get_fac. cbn [facs set_ctrs]. rewrite HF.
  unfold bind at 1. unfold put_fac.
  unfold bind at 1. unfold uptr_Reset. cbn [Nat.eqb]. unfold ret at 1.
  rewrite (weak_attach_Ok a (mkCounter 0 p f)); cycle 1; [done | cbn; by rewrite lookup_insert_eq |].
  cbn. unfold set_ctrs. cbn. rewrite insert_insert_eq. reflexivity.
Qed.

Lemma uptr_eq_raw_entry u p s :
  uptr_eq_raw u p s =
    match entry_is (ctrs s) p u with Some b => Ok b s | None => Err BadAccess s end.
Proof.
  unfold uptr_eq_raw, entry_is. destruct (u =? 0)%nat eqn:Hu; [reflexivity |].
  apply Nat.eqb_neq in Hu. unfold bind, load. rewrite decide_False by done.
  by destruct (ctrs s !! u).
Qed.

(** The search of [Collect] stops at the first entry whose object is [p]. *)
Lemma find_live_first p (l : list nat) i j u s :
  (forall k v, (k < j)%nat -> l !! k = Some v -> entry_is (ctrs s) p v = Some false) ->
  l !! j = Some u -> entry_is (ctrs s) p u = Some true ->
  find_live p l i s = Ok (Some (i + j)%nat) s.
Proof.
  revert i j. induction l as [|v l IH]; intros i j Hbefore Hj Hu; [done |].
  cbn [find_live]. unfold bind at 1. rewrite uptr_eq_raw_entry.
  destruct j as [|j].
  - cbn in Hj. injection Hj as ->. rewrite Hu. unfold ret. by rewrite Nat.add_0_r.
  - rewrite (Hbefore 0%nat v) by (done || lia).
    rewrite (IH (S i) j); [by rewrite Nat.add_succ_r | | done | done].
    intros k w Hk Hw. apply (Hbefore (S k)); [lia | done].
Qed.

Lemma find_live_none p (l : list nat) i s :
  (forall k v, l !! k = Some v -> entry_is (ctrs s) p v = Some false) ->
  find_live p l i s = Ok None s.
Proof.
  revert i. induction l as [|v l IH]; intros i Hall; [done |].
  cbn [find_live]. unfold bind at 1. rewrite uptr_eq_raw_entry.
  rewrite (Hall 0%nat v) by done. apply IH.
  intros k w Hw. apply (Hall (S k)). done.
Qed.

Lemma fac_Collect_unfold f F p s :
  facs s !! f = Some F ->
  let s1 := mkState (ctrs s) (facs s) (objs s) (oom s) (trace s ++ [EvCollect f p]) in
  fac_Collect f p s =
    (if mCleaningUp F then ret tt
     else
       let* r := find_live p (mLiveList F) 0 in
       match r with
       | Some i => remove_fast f i
       | None => E_ASSERT false
       end) s1.
Proof. intros HF s1. unfold fac_Collect, bind at 1 2, emit, get_fac. cbn. by rewrite HF. Qed.

Lemma remove_fast_unfold f F i u s :
  facs s !! f = Some F -> mLiveList F !! i = Some u ->
  remove_fast f i s =
    (uptr_Reset u ;;; ret tt)
      (set_facs s (<[f := mkFactory (remove_fast_list (mLiveList F) i) (mCleaningUp F)]> (facs s))).
Proof.
  intros HF Hu. unfold remove_fast, bind at 1, get_fac. rewrite HF, Hu.
  reflexivity.
Qed.

(** [GCUniquePtr::Reset] does not touch any factory's fields. *)
Lemma uptr_Reset_facs u s r s' :
  uptr_Reset u s = Ok r s' -> facs s' = facs s.
Proof.
  unfold uptr_Reset, bind, collector_Destroy, fac_Destroy, bind, emit, get_fac,
    E_ASSERT, E_DELETE_T, load, store, delete_counter, fault, ret.
  intros H. repeat (case_match; simplify_eq/=); done.
Qed.

(** [RemoveFast] removes the one entry at [i], up to order. *)
Lemma remove_fast_list_perm (l : list nat) i :
  (i < length l)%nat -> remove_fast_list l i ≡ₚ delete i l.
Proof.
  intros Hi. destruct l as [|x0 l0] using rev_ind; [cbn in Hi; lia |].
  rename l0 into l, x0 into x.
  unfold remove_fast_list. rewrite last_snoc. rewrite length_app in Hi |- *. cbn [length] in *.
  case_decide as Hlast.
  - replace i with (length l) by lia. rewrite take_app_length.
    rewrite delete_take_drop. rewrite take_app_length.
    rewrite drop_ge by (rewrite length_app; cbn; lia). by rewrite app_nil_r.
  - replace (length l + 1 - 1)%nat with (length l) by lia. rewrite take_app_length.
    rewrite insert_take_drop by lia.
    rewrite delete_take_drop. rewrite take_app_le by lia. rewrite drop_app_le by lia.
    apply Permutation_app_head. by rewrite <- Permutation_cons_append.
Qed.

Lemma weak_eq_same a s : weak_eq a a s = Ok true s.
Proof. unfold weak_eq. by rewrite Nat.eqb_refl. Qed.

(** The four outcomes of [GCWeakPtr::Reset] on an attached handle. *)
Lemma weak_Reset_keep a c s :
  a <> 0%nat -> ctrs s !! a = Some c -> a32_dec (count c) <> 0 ->
  weak_Reset a s = Ok 0%nat (set_ctrs s (<[a := set_count c (a32_dec (count c))]> (ctrs s))).
Proof.
  intros Ha Hc Hn. rewrite (weak_Reset_unfold a c) by done. cbn [count set_count].
  rewrite (proj2 (Z.eqb_neq _ _) Hn). reflexivity.
Qed.

Lemma weak_Reset_free a c s :
  a <> 0%nat -> ctrs s !! a = Some c -> a32_dec (count c) = 0 -> ptr c = 0%nat ->
  weak_Reset a s = Ok 0%nat (set_ctrs s (delete a (ctrs s))).
Proof.
  intros Ha Hc Hn Hp. rewrite (weak_Reset_unfold a c) by done. cbn [count set_count].
  rewrite Hn, Hp. cbn. unfold bind, delete_counter. cbn. rewrite lookup_insert_eq.
  unfold set_ctrs. cbn. by rewrite delete_insert_eq.
Qed.

Lemma weak_Reset_collect a c s :
  a <> 0%nat -> ctrs s !! a = Some c -> a32_dec (count c) = 0 ->
  ptr c <> 0%nat -> pCollector c <> 0%nat ->
  weak_Reset a s =
    (collector_Collect (pCollector c) (ptr c) ;;; ret 0%nat)
      (set_ctrs s (<[a := set_count c 0]> (ctrs s))).
Proof.
  intros Ha Hc Hn Hp Hcol. rewrite (weak_Reset_unfold a c) by done. cbn [count set_count].
  rewrite Hn. cbn [Z.eqb]. rewrite !nat_eqb_ne by done. reflexivity.
Qed.

Lemma weak_Reset_no_collector a c s :
  a <> 0%nat -> ctrs s !! a = Some c -> a32_dec (count c) = 0 ->
  ptr c <> 0%nat -> pCollector c = 0%nat ->
  weak_Reset a s = Ok 0%nat (set_ctrs s (<[a := set_count c 0]> (ctrs s))).
Proof.
  intros Ha Hc Hn Hp Hcol. rewrite (weak_Reset_unfold a c) by done. cbn [count set_count].
  rewrite Hn, Hcol. cbn [Z.eqb]. rewrite !nat_eqb_ne by done. reflexivity.
Qed.


(** Run the first step of a [bind] chain with an operation lemma. *)
Ltac bstep lem := rewrite (bind_Ok _ _ _ _ _ lem); cbv beta.
Ltac name_state s := match goal with |- context [bind _ _ ?st] => set (s := st) end.

(** * Claims *)

(** C1: round trip through a concrete factory.  On a fresh factory
    (empty live list, not cleaning up, allocator with memory), [Create()]
    returns [H1] with [GetCount() == 1]; copying it into [H2] gives
    [H1 == H2] and count 2 on both; resetting [H1] leaves [H2.GetCount() == 1];
    resetting [H2] takes the live count from 1 to 0, and the only calls made
    are one allocation, one [Collect] and one [Destroy] of the new object.
    Every record, the factory and the allocator end as they started. *)
Theorem factory_round_trip f s :
  f <> 0%nat -> facs s !! f = Some (mkFactory [] false) -> oom s = false ->
  let p := fresh ({[0%nat]} ∪ objs s) in
  scenario f s =
    Ok (mkObserved 1 true 2 2 1 1 0 0 0)
       (mkState (ctrs s) (facs s) (objs s) (oom s)
                (trace s ++ [EvAlloc f p; EvCollect f p; EvDestroy f p])).
Proof.
  intros Hf HF Hoom p.
  destruct (fresh_obj_spec s) as [Hp0 Hp]. fold p in Hp0, Hp.
  pose proof (fresh_ctr_spec s) as [Ha0 Ha].
  set (a := fresh ({[0%nat]} ∪ dom (ctrs s))) in Ha0, Ha.
  unfold scenario.
  bstep (fac_Create_Ok f _ s Hf HF Hoom). fold a p. cbn [mLiveList mCleaningUp app].
  name_state s1.
  assert (H1 : ctrs s1 !! a = Some (mkCounter 1 p f)) by (subst s1; cbn; apply lookup_insert_eq).
  bstep (weak_GetCount_Ok a _ s1 Ha0 H1).
  bstep (weak_attach_Ok a _ s1 Ha0 H1).
  name_state s2.
  bstep (weak_eq_same a s2).
  assert (H2 : ctrs s2 !! a = Some (mkCounter 2 p f)) by (subst s2; cbn; rewrite lookup_insert_eq; reflexivity).
  bstep (weak_GetCount_Ok a _ s2 Ha0 H2).
  bstep (weak_GetCount_Ok a _ s2 Ha0 H2).
  bstep (weak_Reset_keep a _ s2 Ha0 H2 ltac:(cbn [count]; by compute)).
  name_state s3.
  assert (H3 : ctrs s3 !! a = Some (mkCounter 1 p f)) by (subst s3; cbn; rewrite lookup_insert_eq; reflexivity).
  bstep (weak_GetCount_Ok a _ s3 Ha0 H3).
  assert (HF3 : facs s3 !! f = Some (mkFactory [a] false)) by (subst s3 s2 s1; cbn; apply lookup_insert_eq).
  bstep (fac_GetLiveCount_Ok f _ s3 HF3). cbn [mLiveList length].
  eassert (HR : weak_Reset a s3 = Ok 0%nat _).
  { rewrite (weak_Reset_collect a _ s3 Ha0 H3 ltac:(reflexivity) Hp0 Hf). cbn [pCollector ptr].
    set (s4 := set_ctrs s3 _).
    unfold bind at 1. unfold collector_Collect at 1. rewrite decide_False by done.
    assert (HF4 : facs s4 !! f = Some (mkFactory [a] false)) by exact HF3.
    rewrite (fac_Collect_unfold f _ p s4 HF4). cbn [mCleaningUp mLiveList].
    name_state s5.
    assert (H5 : ctrs s5 !! a = Some (mkCounter 0 p f)) by (subst s5 s4; cbn; rewrite lookup_insert_eq; reflexivity).
    assert (HE : entry_is (ctrs s5) p a = Some true).
    { unfold entry_is. rewrite nat_eqb_ne by done. rewrite H5. cbn. by rewrite Nat.eqb_refl. }
    rewrite (bind_Ok _ _ _ _ _ (find_live_first p [a] 0 0 a s5 ltac:(intros; lia) eq_refl HE)).
    cbn [Nat.add]. rewrite (remove_fast_unfold f _ 0 a s5 HF4 eq_refl).
    cbn [mLiveList mCleaningUp].
    name_state s6.
    assert (HF6 : facs s6 !! f = Some (mkFactory [] false)) by (subst s6; cbn; apply lookup_insert_eq).
    rewrite (bind_Ok _ _ _ _ _ (uptr_Reset_Ok a (mkCounter 0 p f) _ s6 Ha0 H5 Hf HF6 Hp0)).
    reflexivity. }
  bstep HR.
  unfold fac_GetLiveCount, get_fac, bind, ret. subst s3 s2 s1. cbn.
  rewrite !lookup_insert_eq. cbn.
  rewrite !insert_insert_eq. rewrite delete_insert_id by done.
  rewrite decide_True by done.
  rewrite (insert_id (facs s) f) by done.
  f_equal. f_equal.
  - set_solver.
  - by rewrite <- !app_assoc.
Qed.

Lemma factory_round_trip_witness :
  (1%nat <> 0%nat /\ facs st_fresh !! 1%nat = Some (mkFactory [] false) /\ oom st_fresh = false) /\
  scenario 1 st_fresh =
    Ok (mkObserved 1 true 2 2 1 1 0 0 0)
       (mkState ∅ {[1%nat := mkFactory [] false]} ∅ false [EvAlloc 1 1; EvCollect 1 1; EvDestroy 1 1]).
Proof.
  split; [split; [done | split; reflexivity] |].
  apply (factory_round_trip 1 st_fresh); [done | reflexivity | reflexivity].
Defined.

(** C2 (as stated): counterexample.  A weak handle on a [GCThisPtr] record
    (null collector) whose reset brings the count to zero while the object
    pointer is non-null: no [Collect] is invoked and the record is kept. *)
Lemma weak_Reset_this_record_no_collect :
  weak_Reset 1 st_this = Ok 0%nat (mkState {[1%nat := mkCounter 0 5 0]} ∅ {[5%nat]} false []) /\
  trace st_this = [].
Proof. split; reflexivity. Qed.

(** C2 (amended): [GCWeakPtr::Reset] on a handle attached to record [c].
    The decremented count (32-bit) is stored; then
    - count not zero: nothing else changes;
    - count zero, object pointer null: the record is freed;
    - count zero, object pointer non-null, collector set: the result is that
      of [collector->Collect(object)] followed by detaching the handle;
    - count zero, object pointer non-null, no collector: nothing else changes.
    Whenever [Reset] returns the handle is empty. *)
Theorem weak_Reset_outcomes a c s :
  a <> 0%nat -> ctrs s !! a = Some c ->
  let n := a32_dec (count c) in
  (n <> 0 -> weak_Reset a s = Ok 0%nat (set_ctrs s (<[a := set_count c n]> (ctrs s)))) /\
  (n = 0 -> ptr c = 0%nat -> weak_Reset a s = Ok 0%nat (set_ctrs s (delete a (ctrs s)))) /\
  (n = 0 -> ptr c <> 0%nat -> pCollector c <> 0%nat ->
     weak_Reset a s =
       (collector_Collect (pCollector c) (ptr c) ;;; ret 0%nat)
         (set_ctrs s (<[a := set_count c 0]> (ctrs s)))) /\
  (n = 0 -> ptr c <> 0%nat -> pCollector c = 0%nat ->
     weak_Reset a s = Ok 0%nat (set_ctrs s (<[a := set_count c 0]> (ctrs s)))).
Proof.
  intros Ha Hc n. split; [|split; [|split]].
  - intros Hn. by apply weak_Reset_keep.
  - intros Hn Hp. by apply (weak_Reset_free a c).
  - intros Hn Hp Hcol. by apply weak_Reset_collect.
  - intros Hn Hp Hcol. by apply weak_Reset_no_collector.
Qed.

Lemma weak_Reset_outcomes_witness :
  (1%nat <> 0%nat /\ ctrs st_this !! 1%nat = Some (mkCounter 1 5 0)) /\
  weak_Reset 1 st_this =
    Ok 0%nat (set_ctrs st_this (<[1%nat := set_count (mkCounter 1 5 0) 0]> (ctrs st_this))).
Proof.
  split; [split; [done | reflexivity] |].
  apply (weak_Reset_outcomes 1 (mkCounter 1 5 0) st_this); [done | reflexivity | reflexivity | done | done].
Defined.

(** C9: [Reset] on an empty [GCUniquePtr] or [GCWeakPtr] returns with the
    whole state unchanged (no call, nothing freed) and the handle empty. *)
Theorem Reset_empty_noop s :
  uptr_Reset 0 s = Ok 0%nat s /\ weak_Reset 0 s = Ok 0%nat s.
Proof. split; reflexivity. Qed.

(** C3: [GCConcreteFactory::Collect(p)] on factory [f] (the call itself is
    the last entry of the trace [s1]).
    - During [CleanUp] it returns with nothing else changed.
    - Otherwise, when the live list entry [j] is the first whose object is
      [p], the run is [RemoveFast] of that entry (which destroys its owning
      handle); when it returns, the live list is the old one with exactly
      that entry removed, up to the order of the others.
    - Otherwise, when no (readable) entry holds [p], the assertion fails. *)
Theorem fac_Collect_spec f F p s :
  facs s !! f = Some F ->
  let s1 := mkState (ctrs s) (facs s) (objs s) (oom s) (trace s ++ [EvCollect f p]) in
  (mCleaningUp F = true -> fac_Collect f p s = Ok tt s1) /\
  (forall j u,
     mCleaningUp F = false ->
     (forall k v, (k < j)%nat -> mLiveList F !! k = Some v -> entry_is (ctrs s) p v = Some false) ->
     mLiveList F !! j = Some u -> entry_is (ctrs s) p u = Some true ->
     fac_Collect f p s = remove_fast f j s1 /\
     (forall r s2, fac_Collect f p s = Ok r s2 ->
        facs s2 !! f = Some (mkFactory (remove_fast_list (mLiveList F) j) false) /\
        remove_fast_list (mLiveList F) j ≡ₚ delete j (mLiveList F))) /\
  (mCleaningUp F = false ->
     (forall k v, mLiveList F !! k = Some v -> entry_is (ctrs s) p v = Some false) ->
     fac_Collect f p s = Err AssertFailed s1).
Proof.
  intros HF s1. split; [|split].
  - intros Hcl. rewrite (fac_Collect_unfold f F p s HF). fold s1. by rewrite Hcl.
  - intros j u Hcl Hbefore Hj Hu.
    assert (Hfc : fac_Collect f p s = remove_fast f j s1).
    { rewrite (fac_Collect_unfold f F p s HF). fold s1. rewrite Hcl.
      by rewrite (bind_Ok _ _ _ _ _ (find_live_first p _ 0 j u s1 Hbefore Hj Hu)). }
    split; [done |]. intros r s2 H. rewrite Hfc in H.
    rewrite (remove_fast_unfold f F j u s1 HF Hj) in H.
    unfold bind in H.
    destruct (uptr_Reset u _) as [r' s3|] eqn:E; [|discriminate].
    apply uptr_Reset_facs in E. unfold ret in H. injection H as <- <-.
    rewrite E. cbn. rewrite lookup_insert_eq, Hcl. split; [done |].
    apply remove_fast_list_perm. by eapply lookup_lt_Some.
  - intros Hcl Hnone. rewrite (fac_Collect_unfold f F p s HF). fold s1. rewrite Hcl.
    by rewrite (bind_Ok _ _ _ _ _ (find_live_none p _ 0 s1 Hnone)).
Qed.

Lemma fac_Collect_spec_witness :
  facs st_owned !! 1%nat = Some (mkFactory [1%nat] false) /\
  fac_Collect 1 5 st_owned =
    remove_fast 1 0
      (mkState (ctrs st_owned) (facs st_owned) (objs st_owned) (oom st_owned) [EvCollect 1 5]).
Proof.
  split; [reflexivity |].
  refine (proj1 (proj1 (proj2 (fac_Collect_spec 1 (mkFactory [1%nat] false) 5 st_owned eq_refl)) 0%nat 1%nat eq_refl _ eq_refl eq_refl)).
  intros k v Hk. lia.
Defined.

(** C4: weak observation after the owner is released.  Record [a] holds
    object [p] for factory [col] and is observed by [k >= 1] weak handles.
    Resetting the owning handle destroys the object and nulls the record's
    object pointer; the weak count stays [k], and dereferencing a weak handle
    now fails.  Resetting the last weak handle ([k = 1]) then frees the record
    and calls nothing; resetting an earlier one only decrements the count. *)
Theorem owner_reset_weak_observer a k p col F s :
  a <> 0%nat -> ctrs s !! a = Some (mkCounter k p col) -> 1 <= k < 2 ^ 32 ->
  p <> 0%nat -> col <> 0%nat -> facs s !! col = Some F ->
  let s1 := mkState (<[a := mkCounter k 0 col]> (ctrs s)) (facs s) (objs s ∖ {[p]}) (oom s)
                    (trace s ++ [EvDestroy col p]) in
  weak_GetCount a s = Ok k s /\
  uptr_Reset a s = Ok 0%nat s1 /\
  weak_GetCount a s1 = Ok k s1 /\
  weak_deref a s1 = Err AssertFailed s1 /\
  (k = 1 -> weak_Reset a s1 = Ok 0%nat (set_ctrs s1 (delete a (ctrs s1)))) /\
  (k <> 1 -> weak_Reset a s1 = Ok 0%nat (set_ctrs s1 (<[a := mkCounter (k - 1) 0 col]> (ctrs s1)))).
Proof.
  intros Ha Hc Hk Hp Hcol HF s1.
  assert (H1 : ctrs s1 !! a = Some (mkCounter k 0 col)) by (cbn; apply lookup_insert_eq).
  split; [by apply (weak_GetCount_Ok a (mkCounter k p col)) |].
  split.
  { rewrite (uptr_Reset_Ok a (mkCounter k p col) F s Ha Hc Hcol HF Hp). cbn [count ptr pCollector].
    rewrite (proj2 (Z.eqb_neq k 0)) by lia. reflexivity. }
  split; [by apply (weak_GetCount_Ok a (mkCounter k 0 col)) |].
  split.
  { unfold weak_deref. rewrite nat_eqb_ne by done. unfold bind at 1.
    by rewrite (load_Ok a (mkCounter k 0 col)) by done. }
  assert (Hdec : a32_dec (count (mkCounter k 0 col)) = k - 1) by (cbn; apply a32_dec_small; lia).
  split.
  - intros ->. apply (weak_Reset_free a (mkCounter 1 0 col)); [done | done | | done].
    rewrite Hdec. reflexivity.
  - intros Hk1. rewrite (weak_Reset_keep a (mkCounter k 0 col)) by (done || lia).
    by rewrite Hdec.
Qed.

Lemma owner_reset_weak_observer_witness :
  (2%nat <> 0%nat /\ ctrs st_observed !! 2%nat = Some (mkCounter 2 7 1) /\ 1 <= 2 < 2 ^ 32 /\
   7%nat <> 0%nat /\ 1%nat <> 0%nat /\ facs st_observed !! 1%nat = Some (mkFactory [2%nat] false)) /\
  uptr_Reset 2 st_observed =
    Ok 0%nat (mkState {[2%nat := mkCounter 2 0 1]} (facs st_observed) ∅ false [EvDestroy 1 7]).
Proof.
  split; [repeat split; (done || reflexivity || lia) |].
  refine (proj1 (proj2 (owner_reset_weak_observer 2 2 7 1 (mkFactory [2%nat] false) st_observed
                          _ eq_refl _ _ _ eq_refl))); (done || lia).
Defined.

(** C5 (as stated): counterexample.  Comparing two empty [GCUniquePtr]s
    dereferences the null record pointer instead of yielding [false], and two
    records holding the same object pointer compare not equal. *)
Lemma uptr_eq_empty_and_twins :
  uptr_eq 0 0 st_twin = Err NullDeref st_twin /\
  resolved (ctrs st_twin) 1 = resolved (ctrs st_twin) 2 /\
  uptr_eq 1 2 st_twin = Ok false st_twin.
Proof. split; [|split]; reflexivity. Qed.

(** C5 (amended): [GCUniquePtr::operator==] compares record identity first:
    handles on different records (or one empty, one not) compare not equal
    whatever objects the records hold; a handle on a record equals itself. *)
Theorem uptr_eq_record_identity a b s :
  (a <> b -> uptr_eq a b s = Ok false s) /\
  (forall c, a <> 0%nat -> ctrs s !! a = Some c -> uptr_eq a a s = Ok true s).
Proof.
  split.
  - intros Hab. unfold uptr_eq. by rewrite nat_eqb_ne.
  - intros c Ha Hc. unfold uptr_eq. rewrite Nat.eqb_refl.
    unfold bind. rewrite !(load_Ok a c) by done. unfold ret. by rewrite Nat.eqb_refl.
Qed.

Lemma uptr_eq_record_identity_witness :
  (1%nat <> 2%nat /\ uptr_eq 1 2 st_twin = Ok false st_twin) /\
  (1%nat <> 0%nat /\ ctrs st_twin !! 1%nat = Some (mkCounter 0 5 1) /\ uptr_eq 1 1 st_twin = Ok true st_twin).
Proof.
  split; split; [done | apply (uptr_eq_record_identity 1 2 st_twin); done | done |].
  split; [reflexivity |].
  apply (proj2 (uptr_eq_record_identity 1 1 st_twin) (mkCounter 0 5 1)); [done | reflexivity].
Defined.

(** C6 (as stated): counterexample.  Two expired weak handles on different
    records both resolve to a null object but compare not equal. *)
Lemma weak_eq_two_expired :
  resolved (ctrs st_expired) 1 = 0%nat /\ resolved (ctrs st_expired) 2 = 0%nat /\
  weak_eq 1 2 st_expired = Ok false st_expired.
Proof. split; [|split]; reflexivity. Qed.

(** C6 (amended): [GCWeakPtr::operator==] yields true exactly when both
    handles are on the same record, or one of them is empty and the other
    resolves to a null object.  Handles on two different records compare not
    equal even when both are expired. *)
Theorem weak_eq_spec a b s :
  (a <> 0%nat -> is_Some (ctrs s !! a)) -> (b <> 0%nat -> is_Some (ctrs s !! b)) ->
  exists r, weak_eq a b s = Ok r s /\
    (r = true <-> a = b \/ ((a = 0%nat \/ b = 0%nat) /\
                             resolved (ctrs s) a = 0%nat /\ resolved (ctrs s) b = 0%nat)).
Proof.
  intros HA HB. unfold weak_eq.
  assert (Hr0 : resolved (ctrs s) 0 = 0%nat) by reflexivity.
  destruct (a =? b)%nat eqn:Eab.
  { exists true. apply Nat.eqb_eq in Eab. split; [done | tauto]. }
  apply Nat.eqb_neq in Eab.
  destruct (a =? 0)%nat eqn:Ea; [|destruct (b =? 0)%nat eqn:Eb].
  - apply Nat.eqb_eq in Ea. subst a.
    destruct (HB (not_eq_sym Eab)) as [cb Hcb].
    exists (ptr cb =? 0)%nat. split.
    + unfold bind. by rewrite (load_Ok b cb) by auto.
    + assert (Hrb : resolved (ctrs s) b = ptr cb).
      { unfold resolved. rewrite nat_eqb_ne by auto. by rewrite Hcb. }
      rewrite Hrb, Hr0, Nat.eqb_eq. intuition.
  - apply Nat.eqb_eq in Eb. subst b. apply Nat.eqb_neq in Ea.
    destruct (HA Ea) as [ca Hca].
    exists (ptr ca =? 0)%nat. split.
    + unfold bind. by rewrite (load_Ok a ca) by auto.
    + assert (Hra : resolved (ctrs s) a = ptr ca).
      { unfold resolved. rewrite nat_eqb_ne by auto. by rewrite Hca. }
      rewrite Hra, Hr0, Nat.eqb_eq. intuition.
  - apply Nat.eqb_neq in Ea. apply Nat.eqb_neq in Eb.
    exists false. split; [done |]. split; [discriminate | intuition].
Qed.

Lemma weak_eq_spec_witness :
  (1%nat <> 0%nat -> is_Some (ctrs st_expired !! 1%nat)) /\
  (2%nat <> 0%nat -> is_Some (ctrs st_expired !! 2%nat)) /\
  exists r, weak_eq 1 2 st_expired = Ok r st_expired /\
    (r = true <-> 1%nat = 2%nat \/ ((1%nat = 0%nat \/ 2%nat = 0%nat) /\
       resolved (ctrs st_expired) 1 = 0%nat /\ resolved (ctrs st_expired) 2 = 0%nat)).
Proof.
  assert (H1 : 1%nat <> 0%nat -> is_Some (ctrs st_expired !! 1%nat)) by (intros; eexists; reflexivity).
  assert (H2 : 2%nat <> 0%nat -> is_Some (ctrs st_expired !! 2%nat)) by (intros; eexists; reflexivity).
  split; [exact H1 | split; [exact H2 |]].
  exact (weak_eq_spec 1 2 st_expired H1 H2).
Defined.

(** C7 (code defect): [GCUniquePtr] copy construction empties the source,
    but copy assignment only swaps: assigning the owning handle on record 2
    to a handle that already owns record 1 leaves the source owning record 1
    instead of empty (and record 1 is neither destroyed nor released). *)
Theorem uptr_copy_assign_swap :
  uptr_copy_construct 2 = (2%nat, 0%nat) /\
  uptr_assign 1 2 = (2%nat, 1%nat).
Proof. split; reflexivity. Qed.

(** C8 (as stated): counterexample.  When the allocator returns no memory,
    [Create()] stops at [E_ASSERT_PTR(ptr)] instead of returning a handle. *)
Lemma fac_Create_oom_asserts :
  fac_Create 1 st_oom =
    Err AssertFailed (mkState ∅ {[1%nat := mkFactory [] false]} ∅ true [EvAlloc 1 0]).
Proof. reflexivity. Qed.

(** C8 (amended): when the allocator returns no memory, [Create()] makes one
    allocation request, then fails its non-null assertion: no handle is
    returned, no record is created, the live list is unchanged, and the
    allocation is not retried. *)
Theorem fac_Create_oom f F s :
  facs s !! f = Some F -> oom s = true ->
  fac_Create f s =
    Err AssertFailed (mkState (ctrs s) (facs s) (objs s) (oom s) (trace s ++ [EvAlloc f 0])).
Proof.
  intros HF Hoom. unfold fac_Create.
  unfold bind at 1. unfold get_fac at 1. rewrite HF.
  unfold bind at 1. rewrite (E_NEW_T_oom f s Hoom). reflexivity.
Qed.

Lemma fac_Create_oom_witness :
  (facs st_oom !! 1%nat = Some (mkFactory [] false) /\ oom st_oom = true) /\
  fac_Create 1 st_oom =
    Err AssertFailed (mkState ∅ {[1%nat := mkFactory [] false]} ∅ true [EvAlloc 1 0]).
Proof.
  split; [split; reflexivity |].
  exact (fac_Create_oom 1 (mkFactory [] false) st_oom eq_refl eq_refl).
Defined.

(** C10: records without a collector.  [GCThisPtr(p)] creates a record with
    a null collector.  When the last weak handle on such a record is reset
    while the object pointer is non-null, the record stays allocated with
    count 0 and its object pointer, and nothing is called.  [~GCThisPtr]
    frees the record exactly when its count is 0 and otherwise nulls its
    object pointer. *)
Theorem this_record_lifetime a c s :
  a <> 0%nat -> ctrs s !! a = Some c -> pCollector c = 0%nat -> ptr c <> 0%nat ->
  a32_dec (count c) = 0 ->
  (forall p, let t := fresh ({[0%nat]} ∪ dom (ctrs s)) in
     this_new p s = Ok t (set_ctrs s (<[t := mkCounter 0 p 0]> (ctrs s)))) /\
  weak_Reset a s = Ok 0%nat (set_ctrs s (<[a := mkCounter 0 (ptr c) 0]> (ctrs s))) /\
  (forall s' c', ctrs s' !! a = Some c' ->
     this_destroy a s' =
       Ok tt (if count c' =? 0 then set_ctrs s' (delete a (ctrs s'))
              else set_ctrs s' (<[a := mkCounter (count c') 0 (pCollector c')]> (ctrs s')))).
Proof.
  intros Ha Hc Hcol Hp Hn. split; [|split].
  - intros p t. destruct (fresh_ctr_spec s) as [Ht0 Ht]. fold t in Ht0, Ht.
    unfold this_new, bind, new_counter, load, store, ret. fold t. cbn. fold t.
    unfold set_ctrs. heap_steps.
  - rewrite (weak_Reset_no_collector a c s Ha Hc Hn Hp Hcol).
    unfold set_count. by rewrite Hcol.
  - intros s' c' Hc'. unfold this_destroy, bind. rewrite (load_Ok a c') by done.
    destruct (count c' =? 0).
    + by rewrite (delete_counter_Ok a c').
    + by rewrite (store_Ok a c').
Qed.

Lemma this_record_lifetime_witness :
  (1%nat <> 0%nat /\ ctrs st_this !! 1%nat = Some (mkCounter 1 5 0) /\
   pCollector (mkCounter 1 5 0) = 0%nat /\ ptr (mkCounter 1 5 0) <> 0%nat /\
   a32_dec (count (mkCounter 1 5 0)) = 0) /\
  weak_Reset 1 st_this = Ok 0%nat (set_ctrs st_this (<[1%nat := mkCounter 0 5 0]> (ctrs st_this))).
Proof.
  split; [repeat split; (done || reflexivity) |].
  exact (proj1 (proj2 (this_record_lifetime 1 (mkCounter 1 5 0) st_this
                         ltac:(done) eq_refl eq_refl ltac:(done) eq_refl))).
Defined.

(** * Further properties of the code *)

(** ** Operators *)

(** [operator!=] of [GCUniquePtr] (both overloads) and of [GCThisPtr] is the
    negation of the matching [operator==]: same result negated, and the same
    failure (a null or dangling record read) where [operator==] fails. *)
Theorem uptr_this_ne_negates_eq a b p s :
  uptr_ne a b s = match uptr_eq a b s with Ok r s' => Ok (negb r) s' | Err e s' => Err e s' end /\
  uptr_ne_raw a p s = match uptr_eq_raw a p s with Ok r s' => Ok (negb r) s' | Err e s' => Err e s' end /\
  this_ne_raw a p s = match this_eq_raw a p s with Ok r s' => Ok (negb r) s' | Err e s' => Err e s' end.
Proof.
  unfold uptr_ne, uptr_eq, uptr_ne_raw, uptr_eq_raw, this_ne_raw, this_eq_raw, bind, load, ret.
  split; [|split]; repeat case_match; simplify_eq/=; try done.
Qed.

(** Readable handle: empty, or its record is allocated. *)
Lemma weak_eq_raw_Ok a p s :
  (a = 0%nat \/ is_Some (ctrs s !! a)) ->
  weak_eq_raw a p s = Ok (resolved (ctrs s) a =? p)%nat s.
Proof.
  intros Ha. unfold weak_eq_raw, resolved.
  destruct (a =? 0)%nat eqn:Ha0; [unfold ret; by rewrite Nat.eqb_sym |].
  apply Nat.eqb_neq in Ha0. destruct Ha as [-> | [c Hc]]; [done |].
  unfold bind. rewrite (load_Ok a c) by done. by rewrite Hc.
Qed.

(** [GCWeakPtr::operator bool()] is true exactly when the handle resolves to
    a non-null object: an empty handle and an expired one (its object
    destroyed, record kept) both convert to false. *)
Theorem weak_bool_resolved a s :
  (a = 0%nat \/ is_Some (ctrs s !! a)) ->
  weak_bool a s = Ok (negb (resolved (ctrs s) a =? 0)%nat) s.
Proof.
  intros Ha. unfold weak_bool, weak_ne_raw, bind.
  rewrite weak_eq_raw_Ok by done. reflexivity.
Qed.

Lemma weak_bool_resolved_witness :
  (2%nat = 0%nat \/ is_Some (ctrs st_observed !! 2%nat)) /\
  weak_bool 2 st_observed = Ok true st_observed /\
  weak_bool 1 st_expired = Ok false st_expired.
Proof.
  split; [right; by eexists |]. split.
  - apply (weak_bool_resolved 2 st_observed). right. by eexists.
  - apply (weak_bool_resolved 1 st_expired). right. by eexists.
Defined.

(** [operator->] / [operator*] of [GCUniquePtr] and of [GCWeakPtr]: on a
    readable handle, the object pointer is returned when the handle resolves
    to a live object; an empty or expired handle fails the assertion. *)
Theorem deref_resolved a s :
  (a = 0%nat \/ is_Some (ctrs s !! a)) ->
  let r := resolved (ctrs s) a in
  uptr_deref a s = (if (r =? 0)%nat then Err AssertFailed s else Ok r s) /\
  weak_deref a s = (if (r =? 0)%nat then Err AssertFailed s else Ok r s).
Proof.
  intros Ha r. unfold r, uptr_deref, weak_deref, resolved.
  destruct (a =? 0)%nat eqn:Ha0; [done |].
  apply Nat.eqb_neq in Ha0. destruct Ha as [-> | [c Hc]]; [done |].
  unfold bind. rewrite !(load_Ok a c) by done. rewrite Hc.
  unfold E_ASSERT. by destruct (ptr c =? 0)%nat.
Qed.

Lemma deref_resolved_witness :
  (2%nat = 0%nat \/ is_Some (ctrs st_observed !! 2%nat)) /\
  weak_deref 2 st_observed = Ok 7%nat st_observed /\
  uptr_deref 1 st_expired = Err AssertFailed st_expired.
Proof.
  split; [right; by eexists |]. split.
  - exact (proj2 (deref_resolved 2 st_observed ltac:(right; by eexists))).
  - exact (proj1 (deref_resolved 1 st_expired ltac:(right; by eexists))).
Defined.




(** Self-assignment of an attached [GCWeakPtr] changes nothing: the
    temporary attaches before the old value is released, so the count never
    reaches zero on the way. *)
Theorem weak_assign_self a c s :
  a <> 0%nat -> ctrs s !! a = Some c -> 1 <= count c < 2 ^ 32 - 1 ->
  weak_assign a a s = Ok a s.
Proof.
  intros Ha Hc Hn. unfold weak_assign. rewrite (bind_Ok _ _ _ _ _ (weak_attach_Ok a c s Ha Hc)).
  cbn [weak_Swap].
  rewrite a32_inc_small by lia.
  set (s1 := set_ctrs s _).
  assert (H1 : ctrs s1 !! a = Some (set_count c (count c + 1))) by (subst s1; cbn; apply lookup_insert_eq).
  rewrite (bind_Ok _ _ _ _ _ (weak_Reset_keep a _ s1 Ha H1 ltac:(cbn; rewrite a32_dec_small by lia; lia))).
  unfold ret. subst s1. cbn [set_count count]. rewrite a32_dec_small by lia.
  replace (count c + 1 - 1) with (count c) by lia.
  destruct s as [m fs os oo tr]. cbn in *. unfold set_ctrs. cbn.
  rewrite insert_insert_eq. f_equal. f_equal. apply insert_id. by destruct c.
Qed.

Lemma weak_assign_self_witness :
  (2%nat <> 0%nat /\ ctrs st_observed !! 2%nat = Some (mkCounter 2 7 1) /\
   1 <= count (mkCounter 2 7 1) < 2 ^ 32 - 1) /\
  weak_assign 2 2 st_observed = Ok 2%nat st_observed.
Proof.
  split; [split; [done | split; [reflexivity | cbn; lia]] |].
  apply (weak_assign_self 2 (mkCounter 2 7 1) st_observed); [done | reflexivity | cbn; lia].
Defined.

(** ** [CleanUp] *)

Lemma reset_map_lookup (m : gmap nat GCCounter) u c v :
  m !! u = Some c ->
  (if count c =? 0 then delete u m else <[u := set_ptr c 0%nat]> m) !! v =
    if decide (v = u) then reset_record (Some c) else m !! v.
Proof.
  intros Hc. cbn. destruct (count c =? 0) eqn:E; case_decide; subst;
    [by rewrite lookup_delete_eq | by rewrite lookup_delete_ne
    | by rewrite lookup_insert_eq | by rewrite lookup_insert_ne].
Qed.

(** Destroying the owning handles of distinct records of factory [f], each
    holding a live object. *)
Lemma destroy_all_Ok f l s :
  f <> 0%nat -> is_Some (facs s !! f) -> NoDup l ->
  (forall u, u ∈ l -> u <> 0%nat /\ exists c, ctrs s !! u = Some c /\ pCollector c = f /\ ptr c <> 0%nat) ->
  exists s', destroy_all l s = Ok tt s' /\
    (forall u, ctrs s' !! u = if decide (u ∈ l) then reset_record (ctrs s !! u) else ctrs s !! u) /\
    facs s' = facs s /\
    objs s' = objs s ∖ list_to_set (map (resolved (ctrs s)) l) /\
    oom s' = oom s /\
    trace s' = trace s ++ map (fun u => EvDestroy f (resolved (ctrs s) u)) l.
Proof.
  revert s. induction l as [|u l IH]; intros s Hf [F HF] Hnd Hl.
  - exists s. split; [reflexivity |]. split; [intros u; by rewrite decide_False by set_solver |].
    cbn. rewrite difference_empty_L, app_nil_r. done.
  - apply NoDup_cons in Hnd as [Hu Hnd].
    destruct (Hl u ltac:(set_solver)) as [Hu0 (c & Hc & Hcol & Hp)].
    rewrite <- Hcol in HF.
    pose proof (uptr_Reset_Ok u c F s Hu0 Hc ltac:(congruence) HF Hp) as HR.
    set (s1 := mkState _ _ _ _ _) in HR.
    assert (H1 : forall v, ctrs s1 !! v = if decide (v = u) then reset_record (Some c) else ctrs s !! v)
      by (intros v; apply reset_map_lookup, Hc).
    assert (Hne : forall v, v ∈ l -> ctrs s1 !! v = ctrs s !! v).
    { intros v Hv. rewrite H1. rewrite decide_False; [done | set_solver]. }
    destruct (IH s1 Hf ltac:(rewrite <- Hcol; by eexists) Hnd) as (s' & Hrun & Hctrs & Hfacs & Hobjs & Hoom & Htr).
    { intros v Hv. destruct (Hl v ltac:(set_solver)) as [Hv0 Hvc]. split; [done |].
      by rewrite Hne. }
    assert (Hres : forall v, In v l -> resolved (ctrs s1) v = resolved (ctrs s) v).
    { intros v Hv. apply list_elem_of_In in Hv. unfold resolved. by rewrite Hne. }
    rewrite (map_ext_in _ _ l Hres) in Hobjs.
    rewrite (map_ext_in _ (fun v => EvDestroy f (resolved (ctrs s) v)) l) in Htr
      by (intros v Hv; by rewrite Hres).
    assert (Hru : resolved (ctrs s) u = ptr c).
    { unfold resolved. rewrite nat_eqb_ne by done. by rewrite Hc. }
    exists s'. split; [cbn [destroy_all]; by rewrite (bind_Ok _ _ _ _ _ HR) |].
    split; [| split; [| split; [| split]]].
    + intros v. rewrite Hctrs, !H1.
      repeat case_decide; subst; try rewrite Hc; first [done | set_solver].
    + by rewrite Hfacs.
    + rewrite Hobjs. cbn. rewrite Hru. set_solver.
    + by rewrite Hoom.
    + rewrite Htr. cbn. rewrite Hru, Hcol. by rewrite <- app_assoc.
Qed.

Lemma fac_CleanUp_Ok f F s :
  f <> 0%nat -> facs s !! f = Some F -> NoDup (mLiveList F) ->
  (forall u, u ∈ mLiveList F ->
     u <> 0%nat /\ exists c, ctrs s !! u = Some c /\ pCollector c = f /\ ptr c <> 0%nat) ->
  exists s', fac_CleanUp f s = Ok tt s' /\
    facs s' = <[f := mkFactory [] false]> (facs s) /\
    (forall u, ctrs s' !! u =
       if decide (u ∈ mLiveList F) then reset_record (ctrs s !! u) else ctrs s !! u) /\
    objs s' = objs s ∖ list_to_set (map (resolved (ctrs s)) (mLiveList F)) /\
    oom s' = oom s /\
    trace s' = trace s ++ map (fun u => EvDestroy f (resolved (ctrs s) u)) (mLiveList F).
Proof.
  intros Hf HF Hnd Hl.
  set (s1 := set_facs s (<[f := mkFactory (mLiveList F) true]> (facs s))).
  assert (HF1 : facs s1 !! f = Some (mkFactory (mLiveList F) true)) by apply lookup_insert_eq.
  destruct (destroy_all_Ok f (mLiveList F) s1 Hf ltac:(by eexists) Hnd Hl)
    as (s2 & Hrun & Hctrs & Hfacs & Hobjs & Hoom & Htr).
  assert (HF2 : facs s2 !! f = Some (mkFactory (mLiveList F) true)) by (by rewrite Hfacs).
  eexists. split.
  { unfold fac_CleanUp. unfold bind at 1, get_fac at 1. rewrite HF.
    unfold bind at 1, put_fac at 1. fold s1.
    unfold bind at 1, live_list_Clear. unfold bind at 1, get_fac at 1. rewrite HF1.
    unfold bind at 1. cbn [mLiveList]. rewrite Hrun.
    unfold bind at 1, get_fac at 1. rewrite HF2. cbn [mCleaningUp].
    unfold bind at 1, put_fac at 1.
    unfold get_fac. cbn. rewrite lookup_insert_eq. reflexivity. }
  cbn. rewrite Hfacs. cbn. rewrite !insert_insert_eq.
  split; [done |]. split; [exact Hctrs |]. split; [exact Hobjs |]. split; [exact Hoom | exact Htr].
Qed.


Lemma st_two_live_entries u :
  u ∈ [2%nat; 3%nat] ->
  u <> 0%nat /\ exists c, ctrs st_two_live !! u = Some c /\ pCollector c = 1%nat /\ ptr c <> 0%nat.
Proof.
  intros Hu. apply list_elem_of_In in Hu. destruct Hu as [<- | [<- | []]].
  - split; [done |]. eexists. split; [reflexivity | split; [reflexivity | done]].
  - split; [done |]. eexists. split; [reflexivity | split; [reflexivity | done]].
Qed.


(** After [CleanUp], a weak handle still attached to a cleaned record sees a
    dead object: it converts to false, dereferencing it fails the assertion,
    and resetting the last such handle frees the record without calling the
    factory. *)
Theorem fac_CleanUp_weak_handles_dead f F s u c :
  f <> 0%nat -> facs s !! f = Some F -> NoDup (mLiveList F) ->
  (forall v, v ∈ mLiveList F ->
     v <> 0%nat /\ exists c, ctrs s !! v = Some c /\ pCollector c = f /\ ptr c <> 0%nat) ->
  u ∈ mLiveList F -> ctrs s !! u = Some c -> count c <> 0 ->
  exists s', fac_CleanUp f s = Ok tt s' /\
    weak_bool u s' = Ok false s' /\
    weak_deref u s' = Err AssertFailed s' /\
    (a32_dec (count c) = 0 -> weak_Reset u s' = Ok 0%nat (set_ctrs s' (delete u (ctrs s')))).
Proof.
  intros Hf HF Hnd Hl Hu Hc Hn.
  destruct (fac_CleanUp_Ok f F s Hf HF Hnd Hl) as (s' & Hrun & _ & Hctrs & _).
  destruct (Hl u Hu) as [Hu0 _].
  assert (Hc' : ctrs s' !! u = Some (set_ptr c 0%nat)).
  { rewrite Hctrs, decide_True by done. rewrite Hc. cbn.
    by rewrite (proj2 (Z.eqb_neq _ _) Hn). }
  exists s'. split; [exact Hrun |]. split; [| split].
  - unfold weak_bool, weak_ne_raw, bind. rewrite weak_eq_raw_Ok by (right; by eexists).
    unfold resolved. rewrite (nat_eqb_ne u 0) by done. by rewrite Hc'.
  - unfold weak_deref. rewrite nat_eqb_ne by done.
    unfold bind. by rewrite (load_Ok u _ s' Hu0 Hc').
  - intros Hz. exact (weak_Reset_free u _ s' Hu0 Hc' Hz eq_refl).
Qed.

Lemma fac_CleanUp_weak_handles_dead_witness :
  (1%nat <> 0%nat /\ facs st_two_live !! 1%nat = Some (mkFactory [2%nat; 3%nat] false) /\
   NoDup [2%nat; 3%nat] /\ 2%nat ∈ [2%nat; 3%nat] /\
   ctrs st_two_live !! 2%nat = Some (mkCounter 1 7 1) /\ count (mkCounter 1 7 1) <> 0) /\
  exists s', fac_CleanUp 1 st_two_live = Ok tt s' /\
    weak_bool 2 s' = Ok false s' /\ weak_deref 2 s' = Err AssertFailed s' /\
    weak_Reset 2 s' = Ok 0%nat (set_ctrs s' (delete 2%nat (ctrs s'))).
Proof.
  assert (Hnd : NoDup [2%nat; 3%nat]) by (repeat constructor; set_solver).
  assert (Hin : 2%nat ∈ [2%nat; 3%nat]) by set_solver.
  split; [split; [done | split; [reflexivity | split; [exact Hnd | split; [exact Hin |
          split; [reflexivity | cbn; lia]]]]] |].
  destruct (fac_CleanUp_weak_handles_dead 1 (mkFactory [2%nat; 3%nat] false) st_two_live
              2 (mkCounter 1 7 1) ltac:(done) eq_refl Hnd st_two_live_entries Hin eq_refl
              ltac:(cbn; lia))
    as (s' & Hrun & Hb & Hd & Hr).
  exists s'. split; [exact Hrun |]. split; [exact Hb |]. split; [exact Hd |].
  apply Hr. reflexivity.
Defined.

(** ** A caller: [DX11Device::Create*] *)

Lemma weak_deref_Ok a c s :
  a <> 0%nat -> ctrs s !! a = Some c -> ptr c <> 0%nat -> weak_deref a s = Ok (ptr c) s.
Proof.
  intros Ha Hc Hp. unfold weak_deref. rewrite nat_eqb_ne by done.
  unfold bind. rewrite (load_Ok a c) by done. unfold E_ASSERT. by rewrite nat_eqb_ne.
Qed.

(** [DX11Device::Create*] when [Initialize] succeeds: the caller gets a
    handle on a new record holding the new object with count 1 (the local
    handle is gone), and the factory's live list has grown by that one
    record. *)
Theorem device_create_initialized f F s :
  f <> 0%nat -> facs s !! f = Some F -> oom s = false ->
  let p := fresh ({[0%nat]} ∪ objs s) in
  let a := fresh ({[0%nat]} ∪ dom (ctrs s)) in
  device_create f true s =
    Ok a (mkState (<[a := mkCounter 1 p f]> (ctrs s))
                  (<[f := mkFactory (mLiveList F ++ [a]) (mCleaningUp F)]> (facs s))
                  ({[p]} ∪ objs s) (oom s) (trace s ++ [EvAlloc f p])).
Proof.
  intros Hf HF Hoom p a.
  destruct (fresh_obj_spec s) as [Hp0 Hp]. fold p in Hp0, Hp.
  destruct (fresh_ctr_spec s) as [Ha0 Ha]. fold a in Ha0, Ha.
  unfold device_create.
  bstep (fac_Create_Ok f F s Hf HF Hoom). fold p a.
  name_state s1.
  assert (H1 : ctrs s1 !! a = Some (mkCounter 1 p f)) by (subst s1; cbn; apply lookup_insert_eq).
  bstep (weak_deref_Ok a _ s1 Ha0 H1 Hp0).
  unfold bind at 1, ret at 1.
  bstep (weak_attach_Ok a _ s1 Ha0 H1).
  name_state s2.
  assert (H2 : ctrs s2 !! a = Some (mkCounter 2 p f)) by (subst s2; cbn; rewrite lookup_insert_eq; reflexivity).
  bstep (weak_Reset_keep a _ s2 Ha0 H2 ltac:(cbn [count]; by compute)).
  unfold ret. subst s2 s1. unfold set_ctrs. cbn. rewrite !insert_insert_eq. reflexivity.
Qed.

Lemma device_create_initialized_witness :
  (1%nat <> 0%nat /\ facs st_fresh !! 1%nat = Some (mkFactory [] false) /\ oom st_fresh = false) /\
  device_create 1 true st_fresh =
    Ok 1%nat (mkState {[1%nat := mkCounter 1 1 1]} {[1%nat := mkFactory [1%nat] false]}
                      {[1%nat]} false [EvAlloc 1 1]).
Proof.
  split; [split; [done | split; reflexivity] |].
  rewrite (device_create_initialized 1 (mkFactory [] false) st_fresh ltac:(done) eq_refl eq_refl).
  vm_compute. reflexivity.
Defined.

(** [DX11Device::Create*] when [Initialize] fails ([x = nullptr]): the caller
    gets an empty handle, the new object has been collected and destroyed
    at once (one allocation, one [Collect], one [Destroy]), and the records,
    the factory and the allocator are as before the call.  The factory holds
    owning handles of readable records whose objects are held by the
    allocator, and is not being cleaned up. *)
Theorem device_create_not_initialized f F s :
  f <> 0%nat -> facs s !! f = Some F -> mCleaningUp F = false -> oom s = false ->
  (forall v, v ∈ mLiveList F -> exists c, ctrs s !! v = Some c /\ ptr c ∈ objs s) ->
  let p := fresh ({[0%nat]} ∪ objs s) in
  device_create f false s =
    Ok 0%nat (mkState (ctrs s) (facs s) (objs s) (oom s)
                      (trace s ++ [EvAlloc f p; EvCollect f p; EvDestroy f p])).
Proof.
  intros Hf HF Hclean Hoom Hl p.
  destruct (fresh_obj_spec s) as [Hp0 Hp]. fold p in Hp0, Hp.
  pose proof (fresh_ctr_spec s) as [Ha0 Ha].
  set (a := fresh ({[0%nat]} ∪ dom (ctrs s))) in Ha0, Ha.
  unfold device_create.
  bstep (fac_Create_Ok f F s Hf HF Hoom). fold p a.
  name_state s1.
  assert (H1 : ctrs s1 !! a = Some (mkCounter 1 p f)) by (subst s1; cbn; apply lookup_insert_eq).
  bstep (weak_deref_Ok a _ s1 Ha0 H1 Hp0).
  unfold weak_assign_raw at 1, E_ASSERT at 1. cbn [Nat.eqb].
  assert (HF1 : facs s1 !! f = Some (mkFactory (mLiveList F ++ [a]) false))
    by (subst s1; cbn; rewrite Hclean; apply lookup_insert_eq).
  eassert (HR : weak_Reset a s1 = Ok 0%nat _).
  { rewrite (weak_Reset_collect a _ s1 Ha0 H1 ltac:(reflexivity) Hp0 Hf). cbn [pCollector ptr].
    set (s4 := set_ctrs s1 _).
    unfold bind at 1. unfold collector_Collect at 1. rewrite decide_False by done.
    assert (HF4 : facs s4 !! f = Some (mkFactory (mLiveList F ++ [a]) false)) by exact HF1.
    rewrite (fac_Collect_unfold f _ p s4 HF4). cbn [mCleaningUp mLiveList].
    name_state s5.
    assert (H5 : ctrs s5 !! a = Some (mkCounter 0 p f))
      by (subst s5 s4; cbn; rewrite lookup_insert_eq; reflexivity).
    assert (HE : entry_is (ctrs s5) p a = Some true).
    { unfold entry_is. rewrite nat_eqb_ne by done. rewrite H5. cbn. by rewrite Nat.eqb_refl. }
    assert (Hbefore : forall k v, (k < length (mLiveList F))%nat ->
              (mLiveList F ++ [a]) !! k = Some v -> entry_is (ctrs s5) p v = Some false).
    { intros k v Hk Hv. rewrite lookup_app_l in Hv by done.
      apply list_elem_of_lookup_2 in Hv. destruct (Hl v Hv) as (c & Hc & Hco).
      unfold entry_is. destruct (v =? 0)%nat eqn:Hv0.
      - f_equal. by apply nat_eqb_ne.
      - assert (Hva : v <> a) by (intros ->; congruence).
        subst s5 s4 s1. cbn. rewrite !lookup_insert_ne by done. rewrite Hc.
        f_equal. apply nat_eqb_ne. intros Heq. apply Hp. by rewrite <- Heq. }
    assert (Hlast : (mLiveList F ++ [a]) !! length (mLiveList F) = Some a)
      by (rewrite lookup_app_r, Nat.sub_diag by done; reflexivity).
    rewrite (bind_Ok _ _ _ _ _ (find_live_first p _ 0 _ a s5 Hbefore Hlast HE)).
    cbn [Nat.add]. rewrite (remove_fast_unfold f _ _ a s5 HF4 Hlast).
    cbn [mLiveList mCleaningUp].
    assert (Hrf : remove_fast_list (mLiveList F ++ [a]) (length (mLiveList F)) = mLiveList F).
    { unfold remove_fast_list. rewrite last_snoc. rewrite decide_True
        by (rewrite length_app; cbn; lia). apply take_app_length. }
    rewrite Hrf.
    name_state s6.
    assert (HF6 : facs s6 !! f = Some (mkFactory (mLiveList F) false)) by (subst s6; cbn; apply lookup_insert_eq).
    rewrite (bind_Ok _ _ _ _ _ (uptr_Reset_Ok a (mkCounter 0 p f) _ s6 Ha0 H5 Hf HF6 Hp0)).
    reflexivity. }
  bstep HR.
  unfold weak_attach at 1. cbn [Nat.eqb]. unfold bind at 1, ret at 1.
  unfold weak_Reset at 1. cbn [Nat.eqb]. unfold bind, ret.
  subst s1. cbn. rewrite !insert_insert_eq. rewrite delete_insert_id by done.
  destruct F as [l cl]. cbn in Hclean. subst cl. cbn.
  rewrite (insert_id (facs s) f) by done.
  f_equal. f_equal.
  - set_solver.
  - by rewrite <- !app_assoc.
Qed.

Lemma device_create_not_initialized_witness :
  (1%nat <> 0%nat /\ facs st_observed !! 1%nat = Some (mkFactory [2%nat] false) /\
   mCleaningUp (mkFactory [2%nat] false) = false /\ oom st_observed = false) /\
  device_create 1 false st_observed =
    Ok 0%nat (mkState (ctrs st_observed) (facs st_observed) (objs st_observed) false
                      [EvAlloc 1 8; EvCollect 1 8; EvDestroy 1 8]).
Proof.
  split; [split; [done | split; [reflexivity | split; reflexivity]] |].
  rewrite (device_create_not_initialized 1 (mkFactory [2%nat] false) st_observed
             ltac:(done) eq_refl eq_refl eq_refl).
  - reflexivity.
  - intros v Hv. apply list_elem_of_In in Hv. destruct Hv as [<- | []].
    eexists. split; [reflexivity | cbn; set_solver].
Defined.

(** ** [GCThisPtr] with a weak observer *)

Lemma this_new_Ok p s :
  let t := fresh ({[0%nat]} ∪ dom (ctrs s)) in
  this_new p s = Ok t (set_ctrs s (<[t := mkCounter 0 p 0]> (ctrs s))).
Proof.
  intros t. destruct (fresh_ctr_spec s) as [Ht0 Ht]. fold t in Ht0, Ht.
  unfold this_new, bind, new_counter, load, store, ret. fold t. cbn. fold t.
  unfold set_ctrs. heap_steps.
Qed.

Lemma this_destroy_Ok a c s :
  a <> 0%nat -> ctrs s !! a = Some c ->
  this_destroy a s =
    Ok tt (set_ctrs s (if count c =? 0 then delete a (ctrs s) else <[a := set_ptr c 0%nat]> (ctrs s))).
Proof.
  intros Ha Hc. unfold this_destroy, bind. rewrite (load_Ok a c) by done.
  destruct (count c =? 0).
  - by rewrite (delete_counter_Ok a c).
  - by rewrite (store_Ok a c).
Qed.

(** A [GCThisPtr] for a non-null object, observed by one [GCWeakPtr]:
    whichever of the two ends first, the record is freed when the second one
    ends and nothing is called.  When the [GCThisPtr] ends first, the weak
    handle then reads a null object pointer. *)
Theorem this_weak_release_either_order p s :
  p <> 0%nat ->
  (let* t := this_new p in
   let* w := weak_attach t in
   weak_Reset w ;;; this_destroy t) s = Ok tt s /\
  (let* t := this_new p in
   let* w := weak_attach t in
   this_destroy t ;;;
   let* q := weak_GetPtr w in
   weak_Reset w ;;; ret q) s = Ok 0%nat s.
Proof.
  intros Hp. destruct (fresh_ctr_spec s) as [Ht0 Ht].
  set (t := fresh ({[0%nat]} ∪ dom (ctrs s))) in Ht0, Ht.
  assert (H1 : ctrs (set_ctrs s (<[t := mkCounter 0 p 0]> (ctrs s))) !! t = Some (mkCounter 0 p 0))
    by apply lookup_insert_eq.
  split.
  - bstep (this_new_Ok p s). fold t.
    bstep (weak_attach_Ok t _ _ Ht0 H1).
    name_state s2.
    assert (H2 : ctrs s2 !! t = Some (mkCounter 1 p 0)) by (subst s2; cbn; rewrite lookup_insert_eq; reflexivity).
    bstep (weak_Reset_no_collector t _ s2 Ht0 H2 eq_refl Hp eq_refl).
    set (s3 := set_ctrs s2 _).
    rewrite (this_destroy_Ok t (mkCounter 0 p 0) s3 Ht0) by (subst s3; cbn; apply lookup_insert_eq).
    cbn [count Z.eqb]. subst s3 s2. destruct s as [m fs os oo tr]. unfold set_ctrs. cbn in *.
    rewrite !insert_insert_eq. by rewrite delete_insert_id.
  - bstep (this_new_Ok p s). fold t.
    bstep (weak_attach_Ok t _ _ Ht0 H1).
    name_state s2.
    assert (H2 : ctrs s2 !! t = Some (mkCounter 1 p 0)) by (subst s2; cbn; rewrite lookup_insert_eq; reflexivity).
    bstep (this_destroy_Ok t _ s2 Ht0 H2). cbn [count Z.eqb].
    name_state s3.
    assert (H3 : ctrs s3 !! t = Some (mkCounter 1 0 0)) by (subst s3; cbn; rewrite lookup_insert_eq; reflexivity).
    unfold weak_GetPtr at 1. rewrite nat_eqb_ne by done.
    unfold bind at 1 2. rewrite (load_Ok t _ s3 Ht0 H3). cbn [ptr].
    unfold ret at 1. unfold bind at 1.
    rewrite (weak_Reset_free t _ s3 Ht0 H3 eq_refl eq_refl).
    unfold ret. subst s3 s2. destruct s as [m fs os oo tr]. unfold set_ctrs. cbn in *.
    rewrite !insert_insert_eq. by rewrite delete_insert_id.
Qed.

Lemma this_weak_release_either_order_witness :
  5%nat <> 0%nat /\
  (let* t := this_new 5 in
   let* w := weak_attach t in
   weak_Reset w ;;; this_destroy t) st_this = Ok tt st_this.
Proof.
  split; [done |].
  exact (proj1 (this_weak_release_either_order 5 st_this ltac:(done))).
Defined.
